(** * graph_pearl/policies.py: the tanh-Gaussian policy head over a graph encoder

    A shallow embedding of [Graph_TanhGaussianPolicy] and [MakeDeterministic].

    Conventions of the embedding:
    - a floating-point tensor is a batch of rows of real numbers (exact
      arithmetic: no rounding, no NaN, no infinities), together with the
      [requires_grad] flag autograd attaches to it;
    - a method is a computation over the receiver ([self]) and the global
      state of the framework (random generator, grad mode), that either
      returns a value or raises; the state survives a raise;
    - an operation on two tensors, and [TanhNormal(mean, std)], are modelled
      for operands of equal shape: every statement about what the stochastic
      branch returns assumes that the two halves of the encoder's output have
      equal width (as they have for the encoder the constructor builds),
      where torch would otherwise broadcast or raise;
    - the graph encoder ([GraphTransformer.forward]), the Gaussian sampler of
      the framework and the density of [TanhNormal] are collaborators whose
      code is not part of policies.py: they are fields of [Externals]. *)

From Stdlib Require Import String Reals Lra Lia ZArith Bool List.
Import ListNotations.

Local Open Scope R_scope.

(** ** Tensors *)

(** The values of a 2-d tensor / ndarray: [batch] rows of features. *)
Definition Matrix : Type := list (list R).

Record Tensor : Type := mkTensor {
  data : Matrix;
  requires_grad : bool
}.

(** What [np_ify] hands back: [tensor.to('cpu').detach().numpy()]. *)
Definition ndarray : Type := Matrix.

Definition map_elems (f : R -> R) (m : Matrix) : Matrix := map (map f) m.

Fixpoint zip_with {A B C : Type} (f : A -> B -> C) (xs : list A) (ys : list B) : list C :=
  match xs, ys with
  | x :: xs', y :: ys' => f x y :: zip_with f xs' ys'
  | _, _ => []
  end.

(** An entrywise operation on two tensors of equal shape. *)
Definition map2_elems (f : R -> R -> R) (a b : Matrix) : Matrix :=
  zip_with (zip_with f) a b.

(** [torch.tensor_split(x, 2, dim=-1)] on one row of length [n]: the first
    [n mod 2] sections get [n / 2 + 1] entries, the others [n / 2]. *)
Definition split_point (n : nat) : nat := (n / 2 + n mod 2)%nat.

Definition first_section (row : list R) : list R :=
  firstn (split_point (length row)) row.

Definition second_section (row : list R) : list R :=
  skipn (split_point (length row)) row.

(** [torch.clamp(x, lo, hi)] on one entry: [min(max(x, lo), hi)]. *)
Definition clamp (lo hi : Z) (x : R) : R := Rmin (Rmax x (IZR lo)) (IZR hi).

(** [x.sum(dim=-1, keepdim=True)] on one row. *)
Definition row_sum (row : list R) : list R := [fold_right Rplus 0 row].

Definition zeros_like (m : Matrix) : Matrix := map_elems (fun _ => 0) m.
Definition ones_like (m : Matrix) : Matrix := map_elems (fun _ => 1) m.

(** ** Constants of policies.py *)

Definition LOG_SIG_MAX : Z := 2.
Definition LOG_SIG_MIN : Z := -20.

(** ** Collaborators *)

(** The members of [graph_utils.Node] the policy names. *)
Inductive Node : Type := STATE_IN | LATENT_IN.

(** A [GraphTransformer] as policies.py constructs it: the five constructor
    arguments, and the learned weights. *)
Record GraphTransformer {Weights : Type} : Type := mkGraphTransformer {
  in_dims : list (Node * Z);
  gt_inner_node_dim : Z;
  gt_inner_node_edges : Z;
  out_dim : Z;
  gt_conv_iterations : Z;
  weights : Weights
}.
Arguments GraphTransformer : clear implicits.
Arguments mkGraphTransformer {Weights}.

Class Externals : Type := {
  (** torch: the state of the global random generator *)
  Generator : Type;
  (** torch: [torch.normal(mean, std)], one Gaussian draw per entry *)
  torch_normal : Generator -> Matrix -> Matrix -> Matrix * Generator;
  (** torch_geometric: [HeteroData] graphs *)
  HeteroData : Type;
  (** graph_modules: the weights of a [GraphTransformer], how the constructor
      initialises them, what its forward pass computes or raises *)
  Weights : Type;
  Failure : Type;
  init_weights : list (Node * Z) -> Z -> Z -> Z -> Z -> Generator -> Weights * Generator;
  GraphTransformer_forward : GraphTransformer Weights -> HeteroData -> Failure + Matrix;
  (** rlkit.torch.distributions: [TanhNormal(mean, std).log_prob(value,
      pre_tanh_value)] on the values of its four tensors *)
  TanhNormal_log_density : Matrix -> Matrix -> Matrix -> Matrix -> Matrix
}.

Section Policies.
Context {ext : Externals}.

(** ** Global state of the framework, exceptions, computations *)

Record World : Type := mkWorld {
  generator : Generator;
  grad_enabled : bool
}.

Definition set_generator (g : Generator) (w : World) : World :=
  mkWorld g (grad_enabled w).

Definition set_grad_enabled (b : bool) (w : World) : World :=
  mkWorld (generator w) b.

(** What can be raised while a method of policies.py runs on an encoder
    output of two dimensions with halves of equal width: whatever the
    encoder raises, and numpy's [IndexError]. *)
Inductive Exception : Type :=
| EncoderFailure (f : Failure)
| IndexError.

Inductive PyResult (A : Type) : Type :=
| Return (a : A)
| Raise (e : Exception).
Arguments Return {A}.
Arguments Raise {A}.

(** A method body: from the receiver and the world to a result, the receiver
    and the world afterwards. *)
Definition M (S A : Type) : Type := S -> World -> PyResult A * S * World.

Definition ret {S A : Type} (a : A) : M S A :=
  fun self w => (Return a, self, w).

Definition bind {S A B : Type} (m : M S A) (k : A -> M S B) : M S B :=
  fun self w =>
    match m self w with
    | (Return a, self1, w1) => k a self1 w1
    | (Raise e, self1, w1) => (Raise e, self1, w1)
    end.

Definition raise {S A : Type} (e : Exception) : M S A :=
  fun self w => (Raise e, self, w).

(** Reading an attribute of [self]. *)
Definition getattr {S X : Type} (field : S -> X) : M S X :=
  fun self w => (Return (field self), self, w).

(** The decorator [@torch.no_grad()]: the grad mode is saved, switched off
    for the body and put back on the way out, also when the body raises. *)
Definition no_grad {S A : Type} (body : M S A) : M S A :=
  fun self w =>
    let prev := grad_enabled w in
    match body self (set_grad_enabled false w) with
    | (r, self1, w1) => (r, self1, set_grad_enabled prev w1)
    end.

Declare Scope py_scope.
Delimit Scope py_scope with py.
Notation "x <- m ;; k" := (bind m (fun x => k))
  (at level 100, m at next level, right associativity) : py_scope.
Notation "' pat <- m ;; k" := (bind m (fun xy => match xy with pat => k end))
  (at level 100, pat pattern, m at next level, right associativity) : py_scope.
Local Open Scope py_scope.

(** ** The torch operations forward calls *)

(** Autograd: the result of an operation requires grad when grad mode is on
    and one of its inputs does. *)
Definition track {S : Type} (inputs_require_grad : bool) (d : Matrix) : M S Tensor :=
  fun self w =>
    (Return (mkTensor d (grad_enabled w && inputs_require_grad)), self, w).

(** [a, b = torch.tensor_split(x, 2, dim=-1)] *)
Definition torch_tensor_split {S : Type} (x : Tensor) : M S (Tensor * Tensor) :=
  a <- track (requires_grad x) (map first_section (data x)) ;;
  b <- track (requires_grad x) (map second_section (data x)) ;;
  ret (a, b).

Definition torch_clamp {S : Type} (x : Tensor) (lo hi : Z) : M S Tensor :=
  track (requires_grad x) (map_elems (clamp lo hi) (data x)).

Definition torch_exp {S : Type} (x : Tensor) : M S Tensor :=
  track (requires_grad x) (map_elems exp (data x)).

Definition torch_tanh {S : Type} (x : Tensor) : M S Tensor :=
  track (requires_grad x) (map_elems tanh (data x)).

Definition torch_add {S : Type} (x y : Tensor) : M S Tensor :=
  track (requires_grad x || requires_grad y) (map2_elems Rplus (data x) (data y)).

Definition torch_mul {S : Type} (x y : Tensor) : M S Tensor :=
  track (requires_grad x || requires_grad y) (map2_elems Rmult (data x) (data y)).

(** [x.sum(dim=-1, keepdim=True)] *)
Definition sum_last_keepdim {S : Type} (x : Tensor) : M S Tensor :=
  track (requires_grad x) (map row_sum (data x)).

(** [x.requires_grad_()] *)
Definition requires_grad_ (x : Tensor) : Tensor := mkTensor (data x) true.

(** [torch.distributions.Normal(mean, std).sample()]: one call of the
    framework's Gaussian sampler, which advances the generator; the draw is
    made under no_grad, so it never requires grad. *)
Definition Normal_sample {S : Type} (mean std : Tensor) : M S Tensor :=
  fun self w =>
    let drawn := torch_normal (generator w) (data mean) (data std) in
    (Return (mkTensor (fst drawn) false), self, set_generator (snd drawn) w).

(** [np_ify(tensor)] *)
Definition np_ify (x : Tensor) : ndarray := data x.

(** [self.module(graph)]: the encoder's forward pass; its output comes from
    trainable weights, so it requires grad whenever grad mode is on. *)
Definition call_module {S : Type} (m : GraphTransformer Weights) (graph : HeteroData)
  : M S Tensor :=
  match GraphTransformer_forward m graph with
  | inl f => raise (EncoderFailure f)
  | inr out => track true out
  end.

(** [GraphTransformer(in_dims, inner_node_dim, inner_node_edges, out_dim,
    conv_iterations)] *)
Definition GraphTransformer_new (dims : list (Node * Z)) (inner edges out iterations : Z)
  (w : World) : GraphTransformer Weights * World :=
  let init := init_weights dims inner edges out iterations (generator w) in
  (mkGraphTransformer dims inner edges out iterations (fst init),
   set_generator (snd init) w).

(** ** rlkit.torch.distributions.TanhNormal *)

(** [TanhNormal(mean, std)], for a mean and a standard deviation of equal
    shape. *)
Record TanhNormal : Type := mkTanhNormal {
  normal_mean : Tensor;
  normal_std : Tensor
}.

(** Modelled from the spec: [TanhNormal.sample] is missing from the sources.
    The head is a Gaussian squashed through the bounded nonlinearity: the
    plain sampler draws [z] from the Gaussian with the given mean and standard
    deviation, cuts it off from autograd and returns [tanh z] together with
    the pre-tanh value [z] (the caller that did not ask for the pre-tanh
    value keeps the first component only). *)
Definition TanhNormal_sample {S : Type} (d : TanhNormal) : M S (Tensor * Tensor) :=
  z <- Normal_sample (normal_mean d) (normal_std d) ;;
  value <- torch_tanh z ;;
  ret (value, z).

(** Modelled from the spec: [TanhNormal.rsample] is missing from the sources.
    The reparameterized sampler draws standard Gaussian noise of the shape of
    the mean, builds [z = mean + std * noise] with differentiable operations,
    marks it as requiring grad and returns [tanh z] together with [z]. *)
Definition TanhNormal_rsample {S : Type} (d : TanhNormal) : M S (Tensor * Tensor) :=
  noise <- Normal_sample (mkTensor (zeros_like (data (normal_mean d))) false)
                         (mkTensor (ones_like (data (normal_std d))) false) ;;
  scaled <- torch_mul (normal_std d) noise ;;
  z0 <- torch_add (normal_mean d) scaled ;;
  let z := requires_grad_ z0 in
  value <- torch_tanh z ;;
  ret (value, z).

(** [TanhNormal.log_prob(value, pre_tanh_value=...)]: the density is the
    collaborator's, the result depends differentiably on all four tensors. *)
Definition TanhNormal_log_prob {S : Type} (d : TanhNormal) (value pre_tanh : Tensor)
  : M S Tensor :=
  track (requires_grad (normal_mean d) || requires_grad (normal_std d)
         || requires_grad value || requires_grad pre_tanh)
        (TanhNormal_log_density (data (normal_mean d)) (data (normal_std d))
                                (data value) (data pre_tanh)).

(** ** class Graph_TanhGaussianPolicy *)

Record Graph_TanhGaussianPolicy : Type := mkPolicy {
  saved_init_params : list (string * Z);
  inner_node_dim : Z;
  inner_node_edges : Z;
  conv_iterations : Z;
  state_dim : Z;
  latent_dim : Z;
  action_dim : Z;
  module : GraphTransformer Weights
}.

(** The tuple [forward] returns, in the order of its return statement. *)
Record ForwardResult : Type := mkForwardResult {
  action : Tensor;
  mean : Tensor;
  log_std : Tensor;
  log_prob : option Tensor;
  expected_log_prob : option Tensor;
  std : Tensor;
  mean_action_log_prob : option Tensor;
  pre_tanh_value : option Tensor
}.

(** [Graph_TanhGaussianPolicy.__init__]: the constructor builds the object
    from its six arguments; building the encoder draws its initial weights. *)
Definition Graph_TanhGaussianPolicy_init
  (inner_node_dim inner_node_edges conv_iterations state_dim latent_dim action_dim : Z)
  (w : World) : Graph_TanhGaussianPolicy * World :=
  let saved := [("inner_node_dim"%string, inner_node_dim);
                ("inner_node_edges"%string, inner_node_edges);
                ("conv_iterations"%string, conv_iterations);
                ("state_dim"%string, state_dim);
                ("latent_dim"%string, latent_dim);
                ("action_dim"%string, action_dim)] in
  let built := GraphTransformer_new
                 [(STATE_IN, state_dim); (LATENT_IN, latent_dim)]
                 inner_node_dim
                 inner_node_edges
                 (2 * action_dim)%Z
                 conv_iterations
                 w in
  (mkPolicy saved inner_node_dim inner_node_edges conv_iterations
            state_dim latent_dim action_dim (fst built),
   snd built).

(** [Graph_TanhGaussianPolicy.forward] *)
Definition forward (graph : HeteroData)
  (reparameterize deterministic return_log_prob : bool)
  : M Graph_TanhGaussianPolicy ForwardResult :=
  self_module <- getattr module ;;
  output <- call_module self_module graph ;;
  '(mean, log_std) <- torch_tensor_split output ;;
  log_std <- torch_clamp log_std LOG_SIG_MIN LOG_SIG_MAX ;;
  std <- torch_exp log_std ;;
  if deterministic then
    action <- torch_tanh mean ;;
    ret (mkForwardResult action mean log_std None None std None None)
  else
    let tanh_normal := mkTanhNormal mean std in
    if return_log_prob then
      '(action, pre_tanh_value) <-
         (if reparameterize
          then TanhNormal_rsample tanh_normal
          else TanhNormal_sample tanh_normal) ;;
      log_prob <- TanhNormal_log_prob tanh_normal action pre_tanh_value ;;
      log_prob <- sum_last_keepdim log_prob ;;
      ret (mkForwardResult action mean log_std (Some log_prob) None std None
                           (Some pre_tanh_value))
    else
      '(action, _) <-
         (if reparameterize
          then TanhNormal_rsample tanh_normal
          else TanhNormal_sample tanh_normal) ;;
      ret (mkForwardResult action mean log_std None None std None None).

(** [Graph_TanhGaussianPolicy.get_actions], decorated with
    [@torch.no_grad()]; [forward] is called with its defaults
    [reparameterize=False], [return_log_prob=False]. *)
Definition get_actions (graph : HeteroData) (deterministic : bool)
  : M Graph_TanhGaussianPolicy ndarray :=
  no_grad (
    outputs <- forward graph false deterministic false ;;
    ret (np_ify (action outputs))).

(** The info dictionary of [get_action]. *)
Definition Info : Type := list (string * ndarray).

(** [actions[0, :]]: numpy raises [IndexError] on a batch without rows. *)
Definition first_row {S : Type} (actions : ndarray) : M S (list R) :=
  match actions with
  | row :: _ => ret row
  | [] => raise IndexError
  end.

(** [Graph_TanhGaussianPolicy.get_action] *)
Definition get_action (graph : HeteroData) (deterministic : bool)
  : M Graph_TanhGaussianPolicy (list R * Info) :=
  actions <- get_actions graph deterministic ;;
  row <- first_row actions ;;
  ret (row, []).

(** ** class MakeDeterministic *)

(** What the wrapper asks of the policy it wraps: the two methods of
    [ExplorationPolicy], each with a [deterministic] keyword. *)
Class ExplorationPolicy (P Obs : Type) : Type := {
  policy_get_action : Obs -> bool -> M P (list R * Info);
  policy_get_actions : Obs -> bool -> M P ndarray
}.

#[export] Instance Graph_TanhGaussianPolicy_ExplorationPolicy
  : ExplorationPolicy Graph_TanhGaussianPolicy HeteroData :=
  {| policy_get_action := get_action; policy_get_actions := get_actions |}.

Record MakeDeterministic (P : Type) : Type := mkMakeDeterministic {
  stochastic_policy : P
}.
Arguments mkMakeDeterministic {P}.
Arguments stochastic_policy {P}.

(** A method call on [self.stochastic_policy]: the wrapped object is the
    receiver of the call, and the wrapper sees whatever the call did to it. *)
Definition on_stochastic_policy {P A : Type} (m : M P A) : M (MakeDeterministic P) A :=
  fun self w =>
    match m (stochastic_policy self) w with
    | (r, p, w1) => (r, mkMakeDeterministic p, w1)
    end.

(** [MakeDeterministic.__init__] *)
Definition MakeDeterministic_init {P : Type} (stochastic_policy : P) : MakeDeterministic P :=
  mkMakeDeterministic stochastic_policy.

(** [MakeDeterministic.get_action] *)
Definition MakeDeterministic_get_action {P Obs : Type} `{ExplorationPolicy P Obs}
  (observation : Obs) : M (MakeDeterministic P) (list R * Info) :=
  on_stochastic_policy (policy_get_action observation true).

(** [MakeDeterministic.get_actions] *)
Definition MakeDeterministic_get_actions {P Obs : Type} `{ExplorationPolicy P Obs}
  (observations : Obs) : M (MakeDeterministic P) ndarray :=
  on_stochastic_policy (policy_get_actions observations true).

(** ** Vocabulary of the statements *)

(** The sampler forward picks from its [reparameterize] flag. *)
Definition sampler {S : Type} (reparameterize : bool) (d : TanhNormal) : M S (Tensor * Tensor) :=
  if reparameterize then TanhNormal_rsample d else TanhNormal_sample d.

(** The pre-tanh value each sampler builds from the generator. *)
Definition drawn_pre_tanh (reparameterize : bool) (g : Generator) (mean_d std_d : Matrix)
  : Matrix :=
  if reparameterize
  then map2_elems Rplus mean_d
         (map2_elems Rmult std_d
            (fst (torch_normal g (zeros_like mean_d) (ones_like std_d))))
  else fst (torch_normal g mean_d std_d).

(** The generator each sampler leaves behind. *)
Definition generator_after (reparameterize : bool) (g : Generator) (mean_d std_d : Matrix)
  : Generator :=
  if reparameterize
  then snd (torch_normal g (zeros_like mean_d) (ones_like std_d))
  else snd (torch_normal g mean_d std_d).

(** A computation that hands the receiver back as it got it. *)
Definition keeps_self {S A : Type} (m : M S A) : Prop :=
  forall (self : S) (w : World), snd (fst (m self w)) = self.

(** A computation that leaves the grad mode as it found it. *)
Definition keeps_grad_mode {S A : Type} (m : M S A) : Prop :=
  forall (self : S) (w : World), grad_enabled (snd (m self w)) = grad_enabled w.

(** None of the tensors forward computed is attached to an autograd graph. *)
Definition no_graph_recorded (r : ForwardResult) : Prop :=
  requires_grad (action r) = false
  /\ requires_grad (mean r) = false
  /\ requires_grad (log_std r) = false
  /\ requires_grad (std r) = false
  /\ match log_prob r with
     | Some lp => requires_grad lp = false
     | None => True
     end.

End Policies.

Arguments Return {ext A}.
Arguments Raise {ext A}.
Arguments mkMakeDeterministic {P}.
Arguments stochastic_policy {P}.

(** ** A small concrete framework, to run the policy on

    The generator is a counter; a draw returns [mean + std * n] for the
    counter value [n]; a graph is the matrix of its node features; the
    encoder has one weight [k] and sends a row to [out_dim] copies of
    [k * (sum of the row)], refusing the graph without nodes. *)

Definition toy_normal (g : nat) (mean std : Matrix) : Matrix * nat :=
  (map2_elems (fun m s => m + s * INR g) mean std, S g).

Definition toy_forward (m : GraphTransformer R) (graph : Matrix) : string + Matrix :=
  match graph with
  | [] => inl "graph without nodes"%string
  | _ => inr (map (fun row => repeat (weights m * fold_right Rplus 0 row)
                                     (Z.to_nat (out_dim m))) graph)
  end.

Definition toy : Externals := {|
  Generator := nat;
  torch_normal := toy_normal;
  HeteroData := Matrix;
  Weights := R;
  Failure := string;
  init_weights := fun _ _ _ _ _ g => (1, S g);
  GraphTransformer_forward := toy_forward;
  TanhNormal_log_density := fun mean std value pre => map2_elems Rminus pre mean
|}.

Definition toy_world : @World toy := @mkWorld toy 0%nat true.

(** [Graph_TanhGaussianPolicy(8, 4, 3, 5, 2, action_dim=1)] *)
Definition toy_policy : @Graph_TanhGaussianPolicy toy :=
  fst (@Graph_TanhGaussianPolicy_init toy 8 4 3 5 2 1 toy_world).

(** A graph with one node, whose features sum to [0]. *)
Definition toy_graph : @HeteroData toy := [[0]].

(** The toy encoder sends the one-node graph to one row of width two. *)
Definition toy_output : Matrix := [[1 * (0 + 0); 1 * (0 + 0)]].

(** A second concrete framework: the encoder hands the node features back
    as they are (so it returns the batch without rows on the graph without
    nodes, and rows of any width), and never raises. *)
Definition plain : Externals := {|
  Generator := nat;
  torch_normal := toy_normal;
  HeteroData := Matrix;
  Weights := unit;
  Failure := Empty_set;
  init_weights := fun _ _ _ _ _ g => (tt, g);
  GraphTransformer_forward := fun _ graph => inr graph;
  TanhNormal_log_density := fun mean std value pre => map2_elems Rminus pre mean
|}.

Definition plain_world : @World plain := @mkWorld plain 7%nat true.

(** [Graph_TanhGaussianPolicy(8, 4, 3, 5, 2, action_dim=1)] over [plain]. *)
Definition plain_policy : @Graph_TanhGaussianPolicy plain :=
  fst (@Graph_TanhGaussianPolicy_init plain 8 4 3 5 2 1 plain_world).

(** * Properties *)

(** ** Runs on the toy framework *)

Example toy_policy_module :
  module toy_policy
  = mkGraphTransformer [(STATE_IN, 5%Z); (LATENT_IN, 2%Z)] 8 4 2 3 (1 : R).
Proof. reflexivity. Qed.

Example toy_get_action_deterministic :
  @get_action toy toy_graph true toy_policy toy_world
  = (Return ([tanh (1 * (0 + 0))], []), toy_policy, toy_world).
Proof. reflexivity. Qed.

Example toy_get_actions_sampled :
  @get_actions toy toy_graph false toy_policy toy_world
  = (Return [[tanh (1 * (0 + 0) + exp (clamp (-20) 2 (1 * (0 + 0))) * INR 0)]],
     toy_policy, @mkWorld toy 1%nat true).
Proof. reflexivity. Qed.

Example toy_get_action_encoder_raises :
  @get_action toy [] false toy_policy toy_world
  = (Raise (@EncoderFailure toy "graph without nodes"%string), toy_policy, toy_world).
Proof. reflexivity. Qed.

Example split_point_5 : split_point 5 = 3%nat.
Proof. reflexivity. Qed.

Example first_section_odd : first_section [1; 2; 3; 4; 5] = [1; 2; 3].
Proof. reflexivity. Qed.

Example second_section_odd : second_section [1; 2; 3; 4; 5] = [4; 5].
Proof. reflexivity. Qed.

(** ** Lists of rows *)

Lemma split_point_even (k : nat) : split_point (2 * k) = k.
Proof.
  unfold split_point.
  replace (2 * k)%nat with (k * 2)%nat by lia.
  rewrite Nat.div_mul, Nat.Div0.mod_mul by lia. lia.
Qed.

Lemma sections_append (row : list R) : first_section row ++ second_section row = row.
Proof. apply firstn_skipn. Qed.

Lemma zip_sections (out : Matrix) :
  zip_with (@app R) (map first_section out) (map second_section out) = out.
Proof.
  induction out as [| row out IH]; simpl; [reflexivity |].
  now rewrite sections_append, IH.
Qed.

Lemma section_lengths (k : nat) (row : list R) :
  length row = (2 * k)%nat ->
  length (first_section row) = k /\ length (second_section row) = k.
Proof.
  intros Hlen. unfold first_section, second_section.
  rewrite Hlen, split_point_even.
  rewrite length_firstn, length_skipn. lia.
Qed.

(** ** How forward runs *)

Section Properties.
Context {ext : Externals}.

Ltac run :=
  unfold forward, get_actions, get_action, no_grad, call_module,
    torch_tensor_split, torch_clamp, torch_exp, torch_tanh, torch_add, torch_mul,
    sum_last_keepdim, TanhNormal_sample, TanhNormal_rsample, TanhNormal_log_prob,
    Normal_sample, first_row, track, getattr, bind, ret, raise;
  cbn [fst snd data requires_grad action mean log_std log_prob expected_log_prob
       std mean_action_log_prob pre_tanh_value normal_mean normal_std
       generator grad_enabled set_generator set_grad_enabled requires_grad_ np_ify].

(** When the encoder raises, forward raises the same exception and touches
    nothing. *)
Lemma forward_encoder_raises graph reparameterize deterministic return_log_prob
  (self : Graph_TanhGaussianPolicy) (w : World) (f : Failure) :
  GraphTransformer_forward (module self) graph = inl f ->
  forward graph reparameterize deterministic return_log_prob self w
  = (Raise (EncoderFailure f), self, w).
Proof.
  intros Henc. run. rewrite Henc. run. reflexivity.
Qed.

(** The deterministic branch, whatever the other flags. *)
Lemma forward_deterministic graph reparameterize return_log_prob
  (self : Graph_TanhGaussianPolicy) (w : World) (out : Matrix) :
  GraphTransformer_forward (module self) graph = inr out ->
  exists r,
    forward graph reparameterize true return_log_prob self w = (Return r, self, w)
    /\ data (action r) = map_elems tanh (map first_section out)
    /\ data (mean r) = map first_section out
    /\ data (log_std r)
       = map_elems (clamp LOG_SIG_MIN LOG_SIG_MAX) (map second_section out)
    /\ data (std r) = map_elems exp (data (log_std r))
    /\ log_prob r = None /\ expected_log_prob r = None
    /\ mean_action_log_prob r = None /\ pre_tanh_value r = None.
Proof.
  intros Henc. run. rewrite Henc. run.
  eexists. split; [reflexivity |]. cbn. repeat split; reflexivity.
Qed.

(** The stochastic branch, on an output whose halves have equal width. *)
Lemma forward_stochastic graph reparameterize return_log_prob
  (self : Graph_TanhGaussianPolicy) (w : World) (out : Matrix) :
  GraphTransformer_forward (module self) graph = inr out ->
  Forall (fun row => Nat.even (length row) = true) out ->
  exists r z w',
    forward graph reparameterize false return_log_prob self w = (Return r, self, w')
    /\ sampler reparameterize (mkTanhNormal (mean r) (std r)) self w
       = (Return (action r, z), self, w')
    /\ w' = set_generator (generator_after reparameterize (generator w)
                             (data (mean r)) (data (std r))) w
    /\ data (action r) = map_elems tanh (data z)
    /\ data z = drawn_pre_tanh reparameterize (generator w) (data (mean r)) (data (std r))
    /\ data (mean r) = map first_section out
    /\ data (log_std r)
       = map_elems (clamp LOG_SIG_MIN LOG_SIG_MAX) (map second_section out)
    /\ data (std r) = map_elems exp (data (log_std r))
    /\ expected_log_prob r = None /\ mean_action_log_prob r = None
    /\ (if return_log_prob
        then pre_tanh_value r = Some z
             /\ exists lp,
                  bind (TanhNormal_log_prob (mkTanhNormal (mean r) (std r)) (action r) z)
                       sum_last_keepdim self w'
                  = (Return lp, self, w')
                  /\ log_prob r = Some lp
                  /\ data lp = map row_sum
                                 (TanhNormal_log_density (data (mean r)) (data (std r))
                                    (data (action r)) (data z))
        else pre_tanh_value r = None /\ log_prob r = None).
Proof.
  intros Henc _.
  destruct reparameterize, return_log_prob; unfold sampler;
    run; rewrite Henc; run;
    eexists; eexists; eexists; (split; [reflexivity |]); cbn;
    repeat (split; try reflexivity);
    eexists; repeat (split; try reflexivity).
Qed.

(** ** Frame rules *)

Create HintDb frame.

Lemma keeps_self_ret {S A : Type} (a : A) : keeps_self (@ret _ S A a).
Proof. intros self w. reflexivity. Qed.

Lemma keeps_self_raise {S A : Type} (e : Exception) : keeps_self (@raise _ S A e).
Proof. intros self w. reflexivity. Qed.

Lemma keeps_self_getattr {S X : Type} (field : S -> X) : keeps_self (getattr field).
Proof. intros self w. reflexivity. Qed.

Lemma keeps_self_track {S : Type} (b : bool) (d : Matrix) : keeps_self (@track _ S b d).
Proof. intros self w. reflexivity. Qed.

Lemma keeps_self_Normal_sample {S : Type} (mean std : Tensor) :
  keeps_self (@Normal_sample _ S mean std).
Proof. intros self w. reflexivity. Qed.

Lemma keeps_self_bind {S A B : Type} (m : M S A) (k : A -> M S B) :
  keeps_self m -> (forall a, keeps_self (k a)) -> keeps_self (bind m k).
Proof.
  intros Hm Hk self w. unfold bind.
  specialize (Hm self w).
  destruct (m self w) as [[[a | e] self1] w1]; cbn in Hm; subst self1.
  - apply Hk.
  - reflexivity.
Qed.

Lemma keeps_self_no_grad {S A : Type} (m : M S A) :
  keeps_self m -> keeps_self (no_grad m).
Proof.
  intros Hm self w. unfold no_grad.
  specialize (Hm self (set_grad_enabled false w)).
  destruct (m self (set_grad_enabled false w)) as [[r self1] w1]. exact Hm.
Qed.

Lemma keeps_grad_mode_ret {S A : Type} (a : A) : keeps_grad_mode (@ret _ S A a).
Proof. intros self w. reflexivity. Qed.

Lemma keeps_grad_mode_raise {S A : Type} (e : Exception) : keeps_grad_mode (@raise _ S A e).
Proof. intros self w. reflexivity. Qed.

Lemma keeps_grad_mode_getattr {S X : Type} (field : S -> X) :
  keeps_grad_mode (getattr field).
Proof. intros self w. reflexivity. Qed.

Lemma keeps_grad_mode_track {S : Type} (b : bool) (d : Matrix) :
  keeps_grad_mode (@track _ S b d).
Proof. intros self w. reflexivity. Qed.

Lemma keeps_grad_mode_Normal_sample {S : Type} (mean std : Tensor) :
  keeps_grad_mode (@Normal_sample _ S mean std).
Proof. intros self w. reflexivity. Qed.

Lemma keeps_grad_mode_bind {S A B : Type} (m : M S A) (k : A -> M S B) :
  keeps_grad_mode m -> (forall a, keeps_grad_mode (k a)) -> keeps_grad_mode (bind m k).
Proof.
  intros Hm Hk self w. unfold bind.
  specialize (Hm self w).
  destruct (m self w) as [[[a | e] self1] w1]; cbn in Hm.
  - rewrite <- Hm. apply Hk.
  - exact Hm.
Qed.

(** The decorator restores the grad mode whatever its body does to it. *)
Lemma keeps_grad_mode_no_grad {S A : Type} (m : M S A) : keeps_grad_mode (no_grad m).
Proof.
  intros self w. unfold no_grad.
  destruct (m self (set_grad_enabled false w)) as [[r self1] w1]. reflexivity.
Qed.

#[local] Hint Resolve
  @keeps_self_ret @keeps_self_raise @keeps_self_getattr @keeps_self_track
  @keeps_self_Normal_sample @keeps_self_no_grad
  @keeps_grad_mode_ret @keeps_grad_mode_raise @keeps_grad_mode_getattr
  @keeps_grad_mode_track @keeps_grad_mode_Normal_sample @keeps_grad_mode_no_grad
  : frame.

Ltac frame :=
  repeat first
    [ progress auto with frame
    | apply keeps_self_bind; [| intros ?]
    | apply keeps_grad_mode_bind; [| intros ?]
    | match goal with
      | p : (_ * _)%type |- _ => destruct p
      | |- context [match ?b with true => _ | false => _ end] => destruct b
      | |- context [match ?x with inl _ => _ | inr _ => _ end] => destruct x
      | |- context [match ?l with nil => _ | cons _ _ => _ end] => destruct l
      end ].

Lemma torch_ops_keep_self {S : Type} (x y : Tensor) (lo hi : Z) (d : TanhNormal) :
  keeps_self (@torch_tensor_split _ S x)
  /\ keeps_self (@torch_clamp _ S x lo hi)
  /\ keeps_self (@torch_exp _ S x)
  /\ keeps_self (@torch_tanh _ S x)
  /\ keeps_self (@sum_last_keepdim _ S x)
  /\ keeps_self (@TanhNormal_sample _ S d)
  /\ keeps_self (@TanhNormal_rsample _ S d)
  /\ keeps_self (@TanhNormal_log_prob _ S d x y).
Proof.
  unfold TanhNormal_sample, TanhNormal_rsample, TanhNormal_log_prob,
    torch_tensor_split, torch_clamp, torch_exp, torch_tanh, sum_last_keepdim,
    torch_mul, torch_add.
  repeat split; frame.
Qed.

Lemma forward_keeps_self graph reparameterize deterministic return_log_prob :
  keeps_self (forward graph reparameterize deterministic return_log_prob).
Proof.
  unfold forward, call_module, TanhNormal_sample, TanhNormal_rsample,
    TanhNormal_log_prob, torch_tensor_split, torch_clamp, torch_exp, torch_tanh,
    sum_last_keepdim, torch_mul, torch_add.
  frame.
Qed.

Lemma forward_keeps_grad_mode graph reparameterize deterministic return_log_prob :
  keeps_grad_mode (forward graph reparameterize deterministic return_log_prob).
Proof.
  unfold forward, call_module, TanhNormal_sample, TanhNormal_rsample,
    TanhNormal_log_prob, torch_tensor_split, torch_clamp, torch_exp, torch_tanh,
    sum_last_keepdim, torch_mul, torch_add.
  frame.
Qed.

Lemma get_actions_keeps_self graph deterministic :
  keeps_self (get_actions graph deterministic).
Proof.
  unfold get_actions. apply keeps_self_no_grad, keeps_self_bind.
  - apply forward_keeps_self.
  - intros r. apply keeps_self_ret.
Qed.

Lemma get_action_keeps_self graph deterministic :
  keeps_self (get_action graph deterministic).
Proof.
  unfold get_action, first_row. apply keeps_self_bind.
  - apply get_actions_keeps_self.
  - intros actions. frame.
Qed.

(** The wrapper is unchanged by a call that leaves the wrapped policy
    unchanged. *)
Lemma on_stochastic_policy_keeps_self {P A : Type} (m : M P A) :
  keeps_self m -> keeps_self (on_stochastic_policy m).
Proof.
  intros Hm [p] w. unfold on_stochastic_policy. cbn [stochastic_policy].
  specialize (Hm p w). destruct (m p w) as [[r p'] w']. cbn in *. now subst.
Qed.

(** With grad mode off, nothing forward computes is attached to a graph. *)
Lemma forward_without_grad graph reparameterize deterministic return_log_prob
  (self : Graph_TanhGaussianPolicy) (w : World) :
  match forward graph reparameterize deterministic return_log_prob self
          (set_grad_enabled false w) with
  | (Return r, _, _) => no_graph_recorded r
  | (Raise _, _, _) => True
  end.
Proof.
  run. destruct (GraphTransformer_forward (module self) graph) as [f | out]; run;
    [exact I |].
  destruct deterministic, return_log_prob, reparameterize; run;
    unfold no_graph_recorded; cbn; repeat split; reflexivity.
Qed.

(** With grad mode on, the deterministic action is attached to the graph of
    the encoder: the decorator of get_actions is what keeps it off. *)
Lemma forward_with_grad graph reparameterize return_log_prob
  (self : Graph_TanhGaussianPolicy) (w : World) (out : Matrix) :
  GraphTransformer_forward (module self) graph = inr out ->
  exists r,
    forward graph reparameterize true return_log_prob self (set_grad_enabled true w)
    = (Return r, self, set_grad_enabled true w)
    /\ requires_grad (action r) = true.
Proof.
  intros Henc. run. rewrite Henc. run. eexists. split; reflexivity.
Qed.

(** ** Properties of the policy head and of the wrapper *)

(** C1: with [deterministic=True], forward returns [action = tanh(mean)],
    [mean] being the first half of the encoder's output along the last
    dimension; no random draw is made (the generator is left as it was), and
    the action is the same for every setting of [reparameterize] and
    [return_log_prob] and every state of the generator. *)
Theorem C1_deterministic_action_is_tanh_mean
  graph (self : Graph_TanhGaussianPolicy) (out : Matrix) :
  GraphTransformer_forward (module self) graph = inr out ->
  forall reparameterize return_log_prob (w : World),
  exists r,
    forward graph reparameterize true return_log_prob self w = (Return r, self, w)
    /\ data (mean r) = map first_section out
    /\ data (action r) = map_elems tanh (data (mean r))
    /\ forall reparameterize' return_log_prob' (w' : World),
       exists r',
         forward graph reparameterize' true return_log_prob' self w'
         = (Return r', self, w')
         /\ data (action r') = data (action r).
Proof.
  intros Henc rep rlp w.
  destruct (forward_deterministic graph rep rlp self w out Henc)
    as (r & Hrun & Hact & Hmean & _).
  exists r. rewrite Hmean. repeat split; trivial.
  intros rep' rlp' w'.
  destruct (forward_deterministic graph rep' rlp' self w' out Henc)
    as (r' & Hrun' & Hact' & _).
  exists r'. split; [exact Hrun' | congruence].
Qed.

(** C3: the constructor builds the encoder with output dimension
    [2 * action_dim]; forward takes [mean] and the unclamped [log_std] as the
    first and second section of the encoder's output along the last
    dimension, the two sections put side by side give the output back, and
    on an output of the constructed width both have [action_dim] columns. *)
Theorem C3_mean_and_log_std_are_the_halves_of_the_encoder_output
  (inner_node_dim inner_node_edges conv_iterations state_dim latent_dim action_dim : Z)
  (w0 : World) :
  let self := fst (Graph_TanhGaussianPolicy_init inner_node_dim inner_node_edges
                     conv_iterations state_dim latent_dim action_dim w0) in
  out_dim (module self) = (2 * action_dim)%Z
  /\ in_dims (module self) = [(STATE_IN, state_dim); (LATENT_IN, latent_dim)]
  /\ forall graph (out : Matrix),
       GraphTransformer_forward (module self) graph = inr out ->
       Forall (fun row => Z.of_nat (length row) = out_dim (module self)) out ->
       forall reparameterize deterministic return_log_prob (w : World),
       exists r w',
         forward graph reparameterize deterministic return_log_prob self w
         = (Return r, self, w')
         /\ data (mean r) = map first_section out
         /\ data (log_std r)
            = map_elems (clamp LOG_SIG_MIN LOG_SIG_MAX) (map second_section out)
         /\ zip_with (@app R) (map first_section out) (map second_section out) = out
         /\ Forall (fun row => Z.of_nat (length row) = action_dim) (map first_section out)
         /\ Forall (fun row => Z.of_nat (length row) = action_dim) (map second_section out)
         /\ Forall (fun row => Z.of_nat (length row) = action_dim) (data (mean r))
         /\ Forall (fun row => Z.of_nat (length row) = action_dim) (data (log_std r)).
Proof.
  intros self. split; [reflexivity |]. split; [reflexivity |].
  intros graph out Henc Hshape rep det rlp w.
  assert (Hhalves : Forall (fun row => Z.of_nat (length (first_section row)) = action_dim
                                       /\ Z.of_nat (length (second_section row)) = action_dim)
                           out).
  { eapply Forall_impl; [| exact Hshape]. cbn beta. intros row Hrow.
    change (out_dim (module self)) with (2 * action_dim)%Z in Hrow.
    destruct (section_lengths (Z.to_nat action_dim) row) as [H1 H2]; lia. }
  assert (Hfirst : Forall (fun row => Z.of_nat (length row) = action_dim)
                          (map first_section out)).
  { apply Forall_map. eapply Forall_impl; [| exact Hhalves]. now intros row [H1 _]. }
  assert (Hsecond : Forall (fun row => Z.of_nat (length row) = action_dim)
                           (map second_section out)).
  { apply Forall_map. eapply Forall_impl; [| exact Hhalves]. now intros row [_ H2]. }
  assert (Hclamped : Forall (fun row => Z.of_nat (length row) = action_dim)
                            (map_elems (clamp LOG_SIG_MIN LOG_SIG_MAX)
                               (map second_section out))).
  { unfold map_elems. apply Forall_map. eapply Forall_impl; [| exact Hsecond].
    cbn beta. intros row Hrow. now rewrite length_map. }
  assert (Heven : Forall (fun row => Nat.even (length row) = true) out).
  { eapply Forall_impl; [| exact Hshape]. cbn beta. intros row Hrow.
    change (out_dim (module self)) with (2 * action_dim)%Z in Hrow.
    apply Nat.even_spec. exists (Z.to_nat action_dim). lia. }
  destruct det.
  - destruct (forward_deterministic graph rep rlp self w out Henc)
      as (r & Hrun & _ & Hmean & Hlog & _).
    exists r, w. rewrite Hmean, Hlog. auto 10 using zip_sections.
  - destruct (forward_stochastic graph rep rlp self w out Henc Heven)
      as (r & z & w' & Hrun & _ & _ & _ & _ & Hmean & Hlog & _).
    exists r, w'. rewrite Hmean, Hlog. auto 10 using zip_sections.
Qed.

(** C4: with [deterministic=False], on an encoder output whose two halves
    have equal width, the action forward returns is [tanh z], where [z] is
    what the sampler of [TanhNormal(mean, std)] drew, with
    [std = exp(log_std)] for the clamped [log_std]: the reparameterized
    sampler ([z = mean + std * noise], [noise] a standard Gaussian draw) when
    [reparameterize=True], the plain one ([z] a Gaussian draw with that mean
    and standard deviation) otherwise. *)
Theorem C4_stochastic_action_is_tanh_of_a_gaussian_draw
  graph reparameterize return_log_prob
  (self : Graph_TanhGaussianPolicy) (w : World) (out : Matrix) :
  GraphTransformer_forward (module self) graph = inr out ->
  Forall (fun row => Nat.even (length row) = true) out ->
  exists r z w',
    forward graph reparameterize false return_log_prob self w = (Return r, self, w')
    /\ data (mean r) = map first_section out
    /\ data (log_std r)
       = map_elems (clamp LOG_SIG_MIN LOG_SIG_MAX) (map second_section out)
    /\ data (std r) = map_elems exp (data (log_std r))
    /\ (if reparameterize
        then TanhNormal_rsample (mkTanhNormal (mean r) (std r)) self w
        else TanhNormal_sample (mkTanhNormal (mean r) (std r)) self w)
       = (Return (action r, z), self, w')
    /\ data (action r) = map_elems tanh (data z)
    /\ data z
       = (if reparameterize
          then map2_elems Rplus (data (mean r))
                 (map2_elems Rmult (data (std r))
                    (fst (torch_normal (generator w)
                            (zeros_like (data (mean r))) (ones_like (data (std r))))))
          else fst (torch_normal (generator w) (data (mean r)) (data (std r)))).
Proof.
  intros Henc Heven.
  destruct (forward_stochastic graph reparameterize return_log_prob self w out Henc Heven)
    as (r & z & w' & Hrun & Hsample & _ & Hact & Hz & Hmean & Hlog & Hstd & _).
  exists r, z, w'. repeat split; trivial.
  destruct reparameterize; exact Hsample.
Qed.

(** C5: the wrapper delegates and does nothing else. For every wrapped
    policy [p] and observation, [MakeDeterministic(p).get_action(observation)]
    is the run of [p.get_action(observation, deterministic=True)]: same
    result, same world afterwards, and the wrapper still wraps [p] as that
    call left it; likewise for [get_actions]. In particular for a wrapped
    [Graph_TanhGaussianPolicy]. *)
Theorem C5_MakeDeterministic_delegates
  {P Obs : Type} `{ExplorationPolicy P Obs} (p : P) (observation : Obs) (w : World) :
  MakeDeterministic_get_action observation (MakeDeterministic_init p) w
  = (fst (fst (policy_get_action observation true p w)),
     MakeDeterministic_init (snd (fst (policy_get_action observation true p w))),
     snd (policy_get_action observation true p w))
  /\ MakeDeterministic_get_actions observation (MakeDeterministic_init p) w
     = (fst (fst (policy_get_actions observation true p w)),
        MakeDeterministic_init (snd (fst (policy_get_actions observation true p w))),
        snd (policy_get_actions observation true p w))
  /\ forall (self : Graph_TanhGaussianPolicy) graph,
       fst (fst (MakeDeterministic_get_action graph (MakeDeterministic_init self) w))
       = fst (fst (get_action graph true self w))
       /\ fst (fst (MakeDeterministic_get_actions graph (MakeDeterministic_init self) w))
          = fst (fst (get_actions graph true self w)).
Proof.
  unfold MakeDeterministic_get_action, MakeDeterministic_get_actions,
    on_stochastic_policy, MakeDeterministic_init.
  cbn [stochastic_policy].
  split; [| split].
  - destruct (policy_get_action observation true p w) as [[r p'] w']. reflexivity.
  - destruct (policy_get_actions observation true p w) as [[r p'] w']. reflexivity.
  - intros self graph. cbn [policy_get_action policy_get_actions
                             Graph_TanhGaussianPolicy_ExplorationPolicy].
    split.
    + destruct (get_action graph true self w) as [[r p'] w']. reflexivity.
    + destruct (get_actions graph true self w) as [[r p'] w']. reflexivity.
Qed.

(** C7: [expected_log_prob] and [mean_action_log_prob] are always [None];
    [log_prob] and [pre_tanh_value] are [None] unless [deterministic=False]
    and [return_log_prob=True], and then [pre_tanh_value] is the pre-tanh
    value [z] of the sample and [log_prob] is
    [TanhNormal(mean, std).log_prob(action, pre_tanh_value=z)] summed over the
    last dimension with [keepdim=True]. (Outside the deterministic branch
    the two halves of the encoder's output must have equal width, for
    [TanhNormal(mean, std)] to be built.) *)
Theorem C7_optional_outputs_follow_the_flags
  graph reparameterize deterministic return_log_prob
  (self : Graph_TanhGaussianPolicy) (w : World) (out : Matrix) :
  GraphTransformer_forward (module self) graph = inr out ->
  deterministic = true \/ Forall (fun row => Nat.even (length row) = true) out ->
  exists r w',
    forward graph reparameterize deterministic return_log_prob self w
    = (Return r, self, w')
    /\ expected_log_prob r = None
    /\ mean_action_log_prob r = None
    /\ (if negb deterministic && return_log_prob
        then exists z lp,
               sampler reparameterize (mkTanhNormal (mean r) (std r)) self w
               = (Return (action r, z), self, w')
               /\ pre_tanh_value r = Some z
               /\ log_prob r = Some lp
               /\ bind (TanhNormal_log_prob (mkTanhNormal (mean r) (std r)) (action r) z)
                       sum_last_keepdim self w'
                  = (Return lp, self, w')
               /\ data lp = map row_sum
                              (TanhNormal_log_density (data (mean r)) (data (std r))
                                 (data (action r)) (data z))
        else log_prob r = None /\ pre_tanh_value r = None).
Proof.
  intros Henc Hwidth. destruct deterministic.
  - destruct (forward_deterministic graph reparameterize return_log_prob self w out Henc)
      as (r & Hrun & _ & _ & _ & _ & Hlp & Help & Hmalp & Hpre).
    exists r, w. cbn [negb andb]. auto.
  - assert (Heven : Forall (fun row => Nat.even (length row) = true) out)
      by (destruct Hwidth as [Hdet | Heven]; [discriminate Hdet | exact Heven]).
    destruct (forward_stochastic graph reparameterize return_log_prob self w out
                Henc Heven)
      as (r & z & w' & Hrun & Hsample & _ & _ & _ & _ & _ & _ & Help & Hmalp & Hopt).
    exists r, w'. cbn [negb andb]. repeat split; trivial.
    destruct return_log_prob.
    + destruct Hopt as (Hpre & lp & Hlprun & Hlp & Hdata).
      exists z, lp. auto.
    + destruct Hopt as [Hpre Hlp]. auto.
Qed.

(** C8: [get_action(graph, deterministic)] returns the first row of the
    array [get_actions(graph, deterministic)] returns together with an empty
    info dictionary, raising what the indexing [[0, :]] or [get_actions]
    raises; and [get_actions] returns the numpy conversion of the first
    element of the tuple of [forward(graph, deterministic=deterministic)],
    run with grad mode off. *)
Theorem C8_get_action_is_first_row_of_get_actions
  graph deterministic (self : Graph_TanhGaussianPolicy) (w : World) :
  get_action graph deterministic self w
  = match get_actions graph deterministic self w with
    | (Return (row :: _), self', w') => (Return (row, []), self', w')
    | (Return [], self', w') => (Raise IndexError, self', w')
    | (Raise e, self', w') => (Raise e, self', w')
    end
  /\ get_actions graph deterministic self w
     = match forward graph false deterministic false self (set_grad_enabled false w) with
       | (Return r, self', w') =>
           (Return (np_ify (action r)), self', set_grad_enabled (grad_enabled w) w')
       | (Raise e, self', w') =>
           (Raise e, self', set_grad_enabled (grad_enabled w) w')
       end.
Proof.
  split.
  - unfold get_action, bind at 1.
    destruct (get_actions graph deterministic self w) as [[[actions | e] self'] w'];
      [| reflexivity].
    destruct actions as [| row rest]; reflexivity.
  - unfold get_actions, no_grad, bind.
    destruct (forward graph false deterministic false self (set_grad_enabled false w))
      as [[[r | e] self'] w']; reflexivity.
Qed.

(** ** Further properties: what a caller of the policy observes *)

Lemma world_restored (w : World) :
  set_grad_enabled (grad_enabled w) (set_grad_enabled false w) = w.
Proof. destruct w. reflexivity. Qed.

Ltac wrapper :=
  unfold MakeDeterministic_get_action, MakeDeterministic_get_actions,
    on_stochastic_policy, MakeDeterministic_init;
  cbn [stochastic_policy policy_get_action policy_get_actions
       Graph_TanhGaussianPolicy_ExplorationPolicy].

Lemma get_actions_raises graph deterministic
  (self : Graph_TanhGaussianPolicy) (w : World) (f : Failure) :
  GraphTransformer_forward (module self) graph = inl f ->
  get_actions graph deterministic self w = (Raise (EncoderFailure f), self, w).
Proof.
  intros Henc. unfold get_actions, no_grad, bind.
  rewrite (forward_encoder_raises graph false deterministic false self _ f Henc).
  now rewrite world_restored.
Qed.

Lemma get_actions_deterministic graph
  (self : Graph_TanhGaussianPolicy) (w : World) (out : Matrix) :
  GraphTransformer_forward (module self) graph = inr out ->
  get_actions graph true self w
  = (Return (map_elems tanh (map first_section out)), self, w).
Proof.
  intros Henc. unfold get_actions, no_grad, bind, ret.
  destruct (forward_deterministic graph false false self
              (set_grad_enabled false w) out Henc) as (r & Hrun & Hact & _).
  rewrite Hrun. unfold np_ify. now rewrite Hact, world_restored.
Qed.

(** X1: when the encoder raises, [get_actions] and [get_action], called directly
    or through [MakeDeterministic], raise its exception and leave the policy
    and the whole framework state as they were: the grad mode that the
    decorator switched off is back, and no random draw was made. *)
Theorem encoder_failure_leaves_everything_in_place
  graph deterministic (self : Graph_TanhGaussianPolicy) (w : World) (f : Failure) :
  GraphTransformer_forward (module self) graph = inl f ->
  get_actions graph deterministic self w = (Raise (EncoderFailure f), self, w)
  /\ get_action graph deterministic self w = (Raise (EncoderFailure f), self, w)
  /\ MakeDeterministic_get_actions graph (MakeDeterministic_init self) w
     = (Raise (EncoderFailure f), MakeDeterministic_init self, w)
  /\ MakeDeterministic_get_action graph (MakeDeterministic_init self) w
     = (Raise (EncoderFailure f), MakeDeterministic_init self, w).
Proof.
  intros Henc.
  assert (Haction : forall det,
             get_action graph det self w = (Raise (EncoderFailure f), self, w)).
  { intros det. unfold get_action, bind at 1.
    now rewrite (get_actions_raises graph det self w f Henc). }
  split; [apply get_actions_raises, Henc |]. split; [apply Haction |].
  wrapper. rewrite (get_actions_raises graph true self w f Henc), (Haction true).
  split; reflexivity.
Qed.

(** X2: the deterministic action for a graph is the tanh of the first half of
    the first row the encoder returns: [get_action(graph, True)], directly or
    through [MakeDeterministic], returns it with an empty info dictionary,
    whatever the further rows are, and leaves the policy, the generator and
    the grad mode untouched. *)
Theorem deterministic_get_action_reads_the_first_row
  graph (self : Graph_TanhGaussianPolicy) (w : World) (row : list R) (rest : Matrix) :
  GraphTransformer_forward (module self) graph = inr (row :: rest) ->
  get_actions graph true self w
  = (Return (map tanh (first_section row)
             :: map_elems tanh (map first_section rest)), self, w)
  /\ get_action graph true self w
     = (Return (map tanh (first_section row), []), self, w)
  /\ MakeDeterministic_get_action graph (MakeDeterministic_init self) w
     = (Return (map tanh (first_section row), []), MakeDeterministic_init self, w).
Proof.
  intros Henc.
  pose proof (get_actions_deterministic graph self w _ Henc) as Hactions.
  assert (Haction : get_action graph true self w
                    = (Return (map tanh (first_section row), []), self, w)).
  { unfold get_action, bind at 1. rewrite Hactions. reflexivity. }
  split; [exact Hactions |]. split; [exact Haction |].
  wrapper. rewrite Haction. reflexivity.
Qed.

(** X3: on a batch without rows, the deterministic [get_actions] returns the
    array without rows, and [get_action], directly or through
    [MakeDeterministic], raises [IndexError]; nothing else changes. *)
Theorem deterministic_get_action_on_the_empty_batch
  graph (self : Graph_TanhGaussianPolicy) (w : World) :
  GraphTransformer_forward (module self) graph = inr [] ->
  get_actions graph true self w = (Return [], self, w)
  /\ get_action graph true self w = (Raise IndexError, self, w)
  /\ MakeDeterministic_get_action graph (MakeDeterministic_init self) w
     = (Raise IndexError, MakeDeterministic_init self, w).
Proof.
  intros Henc.
  pose proof (get_actions_deterministic graph self w _ Henc) as Hactions.
  assert (Haction : get_action graph true self w = (Raise IndexError, self, w)).
  { unfold get_action, bind at 1. rewrite Hactions. reflexivity. }
  split; [exact Hactions |]. split; [exact Haction |].
  wrapper. rewrite Haction. reflexivity.
Qed.

(** X4: deterministic calls consume nothing: whatever the encoder does,
    [get_actions(graph, True)] and [get_action(graph, True)] leave the
    generator and the grad mode as they were, so a second call of
    [MakeDeterministic.get_action] gives again what the first one gave. *)
Theorem deterministic_calls_are_repeatable
  graph (self : Graph_TanhGaussianPolicy) (w : World) :
  snd (get_actions graph true self w) = w
  /\ snd (get_action graph true self w) = w
  /\ MakeDeterministic_get_action graph
       (snd (fst (MakeDeterministic_get_action graph (MakeDeterministic_init self) w)))
       (snd (MakeDeterministic_get_action graph (MakeDeterministic_init self) w))
     = MakeDeterministic_get_action graph (MakeDeterministic_init self) w
  /\ MakeDeterministic_get_actions graph
       (snd (fst (MakeDeterministic_get_actions graph (MakeDeterministic_init self) w)))
       (snd (MakeDeterministic_get_actions graph (MakeDeterministic_init self) w))
     = MakeDeterministic_get_actions graph (MakeDeterministic_init self) w.
Proof.
  assert (Hactions : exists r, get_actions graph true self w = (r, self, w)).
  { destruct (GraphTransformer_forward (module self) graph) as [f | out] eqn:Henc.
    - rewrite (get_actions_raises graph true self w f Henc). eauto.
    - rewrite (get_actions_deterministic graph self w out Henc). eauto. }
  destruct Hactions as [actions Hactions].
  assert (Hfirst : exists r, get_action graph true self w = (r, self, w)).
  { unfold get_action, first_row, bind, ret, raise. rewrite Hactions.
    destruct actions as [[| row rest] | e]; eauto. }
  destruct Hfirst as [first Hfirst].
  wrapper. rewrite Hactions, Hfirst. cbn [fst snd stochastic_policy].
  rewrite Hactions, Hfirst. auto.
Qed.

(** X5: the decorator of [get_actions] is invisible in the values: the call
    returns the numpy conversion of the action that
    [forward(graph, deterministic=deterministic)] computes in the caller's
    own grad mode, raises what it raises, and leaves the framework state
    where that run of forward leaves it. *)
Theorem get_actions_agrees_with_forward_in_any_grad_mode
  graph deterministic (self : Graph_TanhGaussianPolicy) (w : World) :
  match forward graph false deterministic false self w with
  | (Return r, self', w') =>
      get_actions graph deterministic self w = (Return (data (action r)), self', w')
  | (Raise e, self', w') =>
      get_actions graph deterministic self w = (Raise e, self', w')
  end.
Proof.
  destruct (GraphTransformer_forward (module self) graph) as [f | out] eqn:Henc.
  - rewrite (forward_encoder_raises graph false deterministic false self w f Henc).
    apply get_actions_raises, Henc.
  - destruct w as [g mode].
    destruct deterministic; do 2 run; rewrite Henc; run; reflexivity.
Qed.

(** ** Further properties: clamping, rows and widths *)

Lemma clamp_cases (lo hi : Z) (x : R) :
  (lo <= hi)%Z ->
  (x <= IZR lo -> clamp lo hi x = IZR lo)
  /\ (IZR lo <= x <= IZR hi -> clamp lo hi x = x)
  /\ (IZR hi <= x -> clamp lo hi x = IZR hi).
Proof.
  intros Hle. apply IZR_le in Hle. unfold clamp, Rmin, Rmax.
  repeat split; intros; repeat destruct Rle_dec; lra.
Qed.

Lemma Forall2_map_intro {A B : Type} (P : A -> B -> Prop) (f : A -> B) (l : list A) :
  (forall x, P x (f x)) -> Forall2 P l (map f l).
Proof.
  intros Hf. induction l as [| x l IH]; simpl; constructor; auto.
Qed.

Lemma Forall2_map_elems (P : R -> R -> Prop) (f : R -> R) (m : Matrix) :
  (forall x, P x (f x)) -> Forall2 (Forall2 P) m (map_elems f m).
Proof.
  intros Hf. unfold map_elems.
  apply Forall2_map_intro. intros row. apply Forall2_map_intro, Hf.
Qed.

Lemma map_elems_fixed (f : R -> R) (m : Matrix) :
  Forall (Forall (fun x => f x = x)) m -> map_elems f m = m.
Proof.
  unfold map_elems. induction 1 as [| row m Hrow _ IH]; simpl; [reflexivity |].
  f_equal; [| exact IH].
  induction Hrow as [| x row Hx _ IHrow]; simpl; [reflexivity |].
  now rewrite Hx, IHrow.
Qed.

Lemma section_widths (row : list R) :
  length (first_section row) = (length row - length row / 2)%nat
  /\ length (second_section row) = (length row / 2)%nat.
Proof.
  unfold first_section, second_section, split_point.
  rewrite length_firstn, length_skipn.
  pose proof (Nat.div_mod_eq (length row) 2). lia.
Qed.

(** forward returns when the encoder does; in the stochastic branch the two
    halves must have the same width for [TanhNormal(mean, std)]. *)
Lemma forward_returns graph reparameterize deterministic return_log_prob
  (self : Graph_TanhGaussianPolicy) (w : World) (out : Matrix) :
  GraphTransformer_forward (module self) graph = inr out ->
  deterministic = true \/ Forall (fun row => Nat.even (length row) = true) out ->
  exists r w',
    forward graph reparameterize deterministic return_log_prob self w
    = (Return r, self, w')
    /\ data (mean r) = map first_section out
    /\ data (log_std r)
       = map_elems (clamp LOG_SIG_MIN LOG_SIG_MAX) (map second_section out)
    /\ data (std r) = map_elems exp (data (log_std r)).
Proof.
  intros Henc Hwidth. destruct deterministic.
  - destruct (forward_deterministic graph reparameterize return_log_prob self w out Henc)
      as (r & Hrun & _ & Hmean & Hlog & Hstd & _).
    exists r, w. auto.
  - assert (Heven : Forall (fun row => Nat.even (length row) = true) out)
      by (destruct Hwidth as [Hdet | Heven]; [discriminate Hdet | exact Heven]).
    destruct (forward_stochastic graph reparameterize return_log_prob self w out
                Henc Heven)
      as (r & z & w' & Hrun & _ & _ & _ & _ & Hmean & Hlog & Hstd & _).
    exists r, w'. auto.
Qed.

(** X6: what the clamp does to each entry of the raw [log_std] (the second half
    of the encoder's output): an entry at or below -20 becomes -20, one at or
    above 2 becomes 2, one in between is kept; [std] is [exp(-20)], [exp(2)]
    or [exp] of the raw entry accordingly. (Outside the deterministic branch
    the halves must have equal widths, for [TanhNormal(mean, std)] to be
    built.) *)
Theorem log_std_is_saturated_entry_by_entry
  graph reparameterize deterministic return_log_prob
  (self : Graph_TanhGaussianPolicy) (w : World) (out : Matrix) :
  GraphTransformer_forward (module self) graph = inr out ->
  deterministic = true \/ Forall (fun row => Nat.even (length row) = true) out ->
  exists r w',
    forward graph reparameterize deterministic return_log_prob self w
    = (Return r, self, w')
    /\ Forall2 (Forall2 (fun raw l => (raw <= -20 -> l = -20)
                                      /\ (-20 <= raw <= 2 -> l = raw)
                                      /\ (2 <= raw -> l = 2)))
               (map second_section out) (data (log_std r))
    /\ Forall2 (Forall2 (fun raw s => (raw <= -20 -> s = exp (-20))
                                      /\ (-20 <= raw <= 2 -> s = exp raw)
                                      /\ (2 <= raw -> s = exp 2)))
               (map second_section out) (data (std r)).
Proof.
  intros Henc Hwidth.
  destruct (forward_returns graph reparameterize deterministic return_log_prob
              self w out Henc Hwidth) as (r & w' & Hrun & _ & Hlog & Hstd).
  assert (Hcases : forall x,
             (x <= -20 -> clamp LOG_SIG_MIN LOG_SIG_MAX x = -20)
             /\ (-20 <= x <= 2 -> clamp LOG_SIG_MIN LOG_SIG_MAX x = x)
             /\ (2 <= x -> clamp LOG_SIG_MIN LOG_SIG_MAX x = 2)).
  { intros x. apply (clamp_cases LOG_SIG_MIN LOG_SIG_MAX x).
    unfold LOG_SIG_MIN, LOG_SIG_MAX. lia. }
  exists r, w'. split; [exact Hrun |]. split.
  - rewrite Hlog. apply Forall2_map_elems, Hcases.
  - rewrite Hstd, Hlog. unfold map_elems. rewrite map_map.
    apply Forall2_map_intro. intros row. rewrite map_map.
    apply Forall2_map_intro. intros x.
    destruct (Hcases x) as (Hlo & Hmid & Hhi).
    repeat split; intros Hx;
      [rewrite (Hlo Hx) | rewrite (Hmid Hx) | rewrite (Hhi Hx)]; reflexivity.
Qed.

(** X7: a raw [log_std] that is already within [-20, 2] passes through
    unchanged, and [std] is its exponential. (Outside the deterministic
    branch the halves must have equal widths.) *)
Theorem log_std_in_range_passes_through
  graph reparameterize deterministic return_log_prob
  (self : Graph_TanhGaussianPolicy) (w : World) (out : Matrix) :
  GraphTransformer_forward (module self) graph = inr out ->
  deterministic = true \/ Forall (fun row => Nat.even (length row) = true) out ->
  Forall (Forall (fun x => -20 <= x <= 2)) (map second_section out) ->
  exists r w',
    forward graph reparameterize deterministic return_log_prob self w
    = (Return r, self, w')
    /\ data (log_std r) = map second_section out
    /\ data (std r) = map_elems exp (map second_section out).
Proof.
  intros Henc Hwidth Hrange.
  destruct (forward_returns graph reparameterize deterministic return_log_prob
              self w out Henc Hwidth) as (r & w' & Hrun & _ & Hlog & Hstd).
  assert (Hkept : map_elems (clamp LOG_SIG_MIN LOG_SIG_MAX) (map second_section out)
                  = map second_section out).
  { apply map_elems_fixed.
    eapply Forall_impl; [| exact Hrange]. intros row Hrow.
    eapply Forall_impl; [| exact Hrow]. cbn beta. intros x Hx.
    apply (clamp_cases LOG_SIG_MIN LOG_SIG_MAX x); [unfold LOG_SIG_MIN, LOG_SIG_MAX; lia |].
    unfold LOG_SIG_MIN, LOG_SIG_MAX. lra. }
  exists r, w'. split; [exact Hrun |].
  rewrite Hstd, Hlog, Hkept. split; reflexivity.
Qed.

(** X8: the deterministic forward works row by row: the outputs have as many
    rows as the encoder's output, and row [i] of [action], [mean], [log_std]
    and [std] is computed from row [i] of the encoder's output alone. *)
Theorem deterministic_forward_is_row_by_row
  graph reparameterize return_log_prob
  (self : Graph_TanhGaussianPolicy) (w : World) (out : Matrix) :
  GraphTransformer_forward (module self) graph = inr out ->
  exists r,
    forward graph reparameterize true return_log_prob self w = (Return r, self, w)
    /\ length (data (action r)) = length out
    /\ length (data (mean r)) = length out
    /\ length (data (log_std r)) = length out
    /\ length (data (std r)) = length out
    /\ forall (i : nat) (row : list R),
         nth_error out i = Some row ->
         nth_error (data (mean r)) i = Some (first_section row)
         /\ nth_error (data (action r)) i = Some (map tanh (first_section row))
         /\ nth_error (data (log_std r)) i
            = Some (map (clamp LOG_SIG_MIN LOG_SIG_MAX) (second_section row))
         /\ nth_error (data (std r)) i
            = Some (map exp (map (clamp LOG_SIG_MIN LOG_SIG_MAX) (second_section row))).
Proof.
  intros Henc.
  destruct (forward_deterministic graph reparameterize return_log_prob self w out Henc)
    as (r & Hrun & Hact & Hmean & Hlog & Hstd & _).
  exists r. split; [exact Hrun |].
  rewrite Hstd, Hlog, Hact, Hmean. unfold map_elems.
  rewrite !length_map. repeat split; trivial.
  all: rewrite !nth_error_map, H; reflexivity.
Qed.

(** X9: the widths forward gives to the halves, for any width [n] of the
    encoder's output: [mean] and [action] get [n - n/2] columns, [log_std]
    and [std] get [n/2]; on an odd width the extra column goes to [mean]. *)
Theorem deterministic_forward_section_widths
  graph reparameterize return_log_prob
  (self : Graph_TanhGaussianPolicy) (w : World) (out : Matrix) :
  GraphTransformer_forward (module self) graph = inr out ->
  exists r,
    forward graph reparameterize true return_log_prob self w = (Return r, self, w)
    /\ Forall2 (fun row m => length m = (length row - length row / 2)%nat)
               out (data (mean r))
    /\ Forall2 (fun row a => length a = (length row - length row / 2)%nat)
               out (data (action r))
    /\ Forall2 (fun row l => length l = (length row / 2)%nat) out (data (log_std r))
    /\ Forall2 (fun row s => length s = (length row / 2)%nat) out (data (std r)).
Proof.
  intros Henc.
  destruct (forward_deterministic graph reparameterize return_log_prob self w out Henc)
    as (r & Hrun & Hact & Hmean & Hlog & Hstd & _).
  exists r. split; [exact Hrun |].
  rewrite Hstd, Hlog, Hact, Hmean. unfold map_elems. rewrite !map_map.
  repeat split; apply Forall2_map_intro; intros row;
    rewrite ?length_map; apply section_widths.
Qed.

(** ** Further properties: sampling *)

(** X10: [get_actions(graph, deterministic=False)] makes exactly one draw, with
    the plain sampler: it returns the tanh of one Gaussian draw with the mean
    and standard deviation forward computes, advances the generator by that
    draw, and puts the grad mode back; [get_action] returns the first row of
    it, or raises [IndexError] when the draw has no row. *)
Theorem stochastic_get_actions_makes_one_plain_draw
  graph (self : Graph_TanhGaussianPolicy) (w : World) (out : Matrix) :
  GraphTransformer_forward (module self) graph = inr out ->
  Forall (fun row => Nat.even (length row) = true) out ->
  let mean_d := map first_section out in
  let std_d := map_elems exp
                 (map_elems (clamp LOG_SIG_MIN LOG_SIG_MAX) (map second_section out)) in
  let drawn := torch_normal (generator w) mean_d std_d in
  get_actions graph false self w
  = (Return (map_elems tanh (fst drawn)), self, set_generator (snd drawn) w)
  /\ get_action graph false self w
     = match fst drawn with
       | z :: _ => (Return (map tanh z, []), self, set_generator (snd drawn) w)
       | [] => (Raise IndexError, self, set_generator (snd drawn) w)
       end.
Proof.
  intros Henc _ mean_d std_d drawn.
  assert (Hactions : get_actions graph false self w
                     = (Return (map_elems tanh (fst drawn)), self,
                        set_generator (snd drawn) w)).
  { destruct w as [g mode]. do 2 run. rewrite Henc. run. reflexivity. }
  split; [exact Hactions |].
  unfold get_action, bind at 1. rewrite Hactions.
  destruct (fst drawn) as [| z zs]; reflexivity.
Qed.

(** X11: asking for the log-probability changes nothing but [log_prob] and
    [pre_tanh_value]: with [deterministic=False], on an encoder output whose
    halves have equal width, forward returns the same [action], [mean],
    [log_std] and [std] and leaves the same generator behind whether
    [return_log_prob] is set or not; [expected_log_prob] and
    [mean_action_log_prob] are [None] both times; [log_prob] and
    [pre_tanh_value] are [None] without the flag and set with it,
    [pre_tanh_value] being the pre-tanh value of the action. *)
Theorem return_log_prob_does_not_change_the_sample
  graph reparameterize (self : Graph_TanhGaussianPolicy) (w : World) (out : Matrix) :
  GraphTransformer_forward (module self) graph = inr out ->
  Forall (fun row => Nat.even (length row) = true) out ->
  exists r_without r_with z w',
    forward graph reparameterize false false self w = (Return r_without, self, w')
    /\ forward graph reparameterize false true self w = (Return r_with, self, w')
    /\ action r_with = action r_without
    /\ mean r_with = mean r_without
    /\ log_std r_with = log_std r_without
    /\ std r_with = std r_without
    /\ expected_log_prob r_without = None
    /\ expected_log_prob r_with = None
    /\ mean_action_log_prob r_without = None
    /\ mean_action_log_prob r_with = None
    /\ log_prob r_without = None
    /\ pre_tanh_value r_without = None
    /\ log_prob r_with <> None
    /\ pre_tanh_value r_with = Some z
    /\ data (action r_with) = map_elems tanh (data z).
Proof.
  intros Henc _.
  destruct reparameterize; run; rewrite Henc; run;
    eexists; eexists; eexists; eexists;
    (split; [reflexivity |]); (split; [reflexivity |]);
    cbn; repeat (split; [reflexivity |]);
    (split; [discriminate |]); split; reflexivity.
Qed.

(** X12: no operation assigns to the policy: after [forward], [get_actions]
    and [get_action], returning or raising, the receiver is the object it
    was (its encoder and every attribute the constructor set), and after the
    two methods of [MakeDeterministic] the wrapper still wraps that same
    object. *)
Theorem operations_leave_the_policy_object_unchanged
  graph reparameterize deterministic return_log_prob
  (self : Graph_TanhGaussianPolicy) (w : World) :
  snd (fst (forward graph reparameterize deterministic return_log_prob self w)) = self
  /\ snd (fst (get_actions graph deterministic self w)) = self
  /\ snd (fst (get_action graph deterministic self w)) = self
  /\ snd (fst (MakeDeterministic_get_action graph (MakeDeterministic_init self) w))
     = MakeDeterministic_init self
  /\ snd (fst (MakeDeterministic_get_actions graph (MakeDeterministic_init self) w))
     = MakeDeterministic_init self.
Proof.
  split; [apply forward_keeps_self |].
  split; [apply get_actions_keeps_self |].
  split; [apply get_action_keeps_self |].
  split.
  - apply (on_stochastic_policy_keeps_self (get_action graph true)),
      get_action_keeps_self.
  - apply (on_stochastic_policy_keeps_self (get_actions graph true)),
      get_actions_keeps_self.
Qed.

End Properties.

(** ** The properties at work on the toy framework *)

Lemma C1_witness :
  @GraphTransformer_forward toy (module toy_policy) toy_graph = inr toy_output
  /\ exists r,
       @forward toy toy_graph false true false toy_policy toy_world
       = (Return r, toy_policy, toy_world)
       /\ data (action r) = [[tanh (1 * (0 + 0))]].
Proof.
  split; [reflexivity |].
  destruct (@C1_deterministic_action_is_tanh_mean toy toy_graph toy_policy toy_output
              eq_refl false false toy_world)
    as (r & Hrun & Hmean & Hact & _).
  exists r. split; [exact Hrun |]. rewrite Hact, Hmean. reflexivity.
Defined.

Lemma C3_witness :
  @GraphTransformer_forward toy (module toy_policy) toy_graph = inr toy_output
  /\ Forall (fun row => Z.of_nat (length row) = out_dim (module toy_policy)) toy_output
  /\ exists r w',
       @forward toy toy_graph false true false toy_policy toy_world
       = (Return r, toy_policy, w')
       /\ data (mean r) = [[1 * (0 + 0)]]
       /\ Forall (fun row => Z.of_nat (length row) = 1%Z) (data (log_std r)).
Proof.
  assert (Hshape : Forall (fun row => Z.of_nat (length row) = out_dim (module toy_policy))
                          toy_output)
    by (repeat constructor).
  split; [reflexivity |]. split; [exact Hshape |].
  destruct (@C3_mean_and_log_std_are_the_halves_of_the_encoder_output
              toy 8 4 3 5 2 1 toy_world) as (_ & _ & Hforward).
  destruct (Hforward toy_graph toy_output eq_refl Hshape false true false toy_world)
    as (r & w' & Hrun & Hmean & _ & _ & _ & _ & _ & Hlen).
  exists r, w'. split; [exact Hrun |]. split; [exact Hmean | exact Hlen].
Defined.

Lemma C4_witness :
  @GraphTransformer_forward toy (module toy_policy) toy_graph = inr toy_output
  /\ Forall (fun row : list R => Nat.even (length row) = true) toy_output
  /\ exists r z w',
       @forward toy toy_graph true false false toy_policy toy_world
       = (Return r, toy_policy, w')
       /\ data (action r) = map_elems tanh (data z).
Proof.
  assert (Hwidth : Forall (fun row : list R => Nat.even (length row) = true) toy_output)
    by (repeat constructor).
  split; [reflexivity |]. split; [exact Hwidth |].
  destruct (@C4_stochastic_action_is_tanh_of_a_gaussian_draw toy toy_graph true false
              toy_policy toy_world toy_output eq_refl Hwidth)
    as (r & z & w' & Hrun & _ & _ & _ & _ & Hact & _).
  exists r, z, w'. split; assumption.
Defined.

Lemma C7_witness :
  @GraphTransformer_forward toy (module toy_policy) toy_graph = inr toy_output
  /\ (false = true
      \/ Forall (fun row : list R => Nat.even (length row) = true) toy_output)
  /\ exists r w',
       @forward toy toy_graph false false true toy_policy toy_world
       = (Return r, toy_policy, w')
       /\ expected_log_prob r = None
       /\ mean_action_log_prob r = None
       /\ exists z lp, pre_tanh_value r = Some z /\ log_prob r = Some lp.
Proof.
  assert (Hwidth : false = true
                   \/ Forall (fun row : list R => Nat.even (length row) = true)
                             toy_output)
    by (right; repeat constructor).
  split; [reflexivity |]. split; [exact Hwidth |].
  destruct (@C7_optional_outputs_follow_the_flags toy toy_graph false false true
              toy_policy toy_world toy_output eq_refl Hwidth)
    as (r & w' & Hrun & Help & Hmalp & z & lp & _ & Hpre & Hlp & _).
  exists r, w'. split; [exact Hrun |]. split; [exact Help |]. split; [exact Hmalp |].
  exists z, lp. split; assumption.
Defined.

(** ** The further properties at work on the two concrete frameworks *)

Lemma encoder_failure_witness :
  @GraphTransformer_forward toy (module toy_policy) [] = inl "graph without nodes"%string
  /\ @get_action toy [] false toy_policy toy_world
     = (Raise (@EncoderFailure toy "graph without nodes"%string), toy_policy, toy_world).
Proof.
  split; [reflexivity |].
  apply (@encoder_failure_leaves_everything_in_place toy [] false toy_policy toy_world
           "graph without nodes"%string eq_refl).
Defined.

Lemma first_row_witness :
  @GraphTransformer_forward plain (module plain_policy) [[1; 2]; [3; 4]]
  = inr [[1; 2]; [3; 4]]
  /\ @get_action plain [[1; 2]; [3; 4]] true plain_policy plain_world
     = (Return ([tanh 1], []), plain_policy, plain_world).
Proof.
  split; [reflexivity |].
  apply (@deterministic_get_action_reads_the_first_row plain [[1; 2]; [3; 4]]
           plain_policy plain_world [1; 2] [[3; 4]] eq_refl).
Defined.

Lemma empty_batch_witness :
  @GraphTransformer_forward plain (module plain_policy) [] = inr []
  /\ @get_action plain [] true plain_policy plain_world
     = (Raise (@IndexError plain), plain_policy, plain_world).
Proof.
  split; [reflexivity |].
  apply (@deterministic_get_action_on_the_empty_batch plain [] plain_policy plain_world
           eq_refl).
Defined.

Lemma saturation_witness :
  @GraphTransformer_forward plain (module plain_policy) [[0; 5]] = inr [[0; 5]]
  /\ (true = true \/ Forall (fun row : list R => Nat.even (length row) = true) [[0; 5]])
  /\ exists r w',
       @forward plain [[0; 5]] false true false plain_policy plain_world
       = (Return r, plain_policy, w')
       /\ Forall2 (Forall2 (fun raw l => (raw <= -20 -> l = -20)
                                         /\ (-20 <= raw <= 2 -> l = raw)
                                         /\ (2 <= raw -> l = 2)))
                  [[5]] (data (log_std r)).
Proof.
  assert (Hwidth : true = true
                   \/ Forall (fun row : list R => Nat.even (length row) = true) [[0; 5]])
    by (left; reflexivity).
  split; [reflexivity |]. split; [exact Hwidth |].
  destruct (@log_std_is_saturated_entry_by_entry plain [[0; 5]] false true false
              plain_policy plain_world [[0; 5]] eq_refl Hwidth)
    as (r & w' & Hrun & Hlog & _).
  exists r, w'. split; [exact Hrun | exact Hlog].
Defined.

Lemma pass_through_witness :
  @GraphTransformer_forward plain (module plain_policy) [[0; 1]] = inr [[0; 1]]
  /\ (false = true \/ Forall (fun row : list R => Nat.even (length row) = true) [[0; 1]])
  /\ Forall (Forall (fun x => -20 <= x <= 2)) (map second_section [[0; 1]])
  /\ exists r w',
       @forward plain [[0; 1]] false false false plain_policy plain_world
       = (Return r, plain_policy, w')
       /\ data (log_std r) = [[1]]
       /\ data (std r) = [[exp 1]].
Proof.
  assert (Hwidth : false = true
                   \/ Forall (fun row : list R => Nat.even (length row) = true) [[0; 1]])
    by (right; repeat constructor).
  assert (Hrange : Forall (Forall (fun x => -20 <= x <= 2)) (map second_section [[0; 1]]))
    by (repeat constructor; lra).
  split; [reflexivity |]. split; [exact Hwidth |]. split; [exact Hrange |].
  apply (@log_std_in_range_passes_through plain [[0; 1]] false false false
           plain_policy plain_world [[0; 1]] eq_refl Hwidth Hrange).
Defined.

Lemma row_by_row_witness :
  @GraphTransformer_forward plain (module plain_policy) [[1; 2]; [3; 4]]
  = inr [[1; 2]; [3; 4]]
  /\ nth_error [[1; 2]; [3; 4]] 1 = Some [3; 4]
  /\ exists r,
       @forward plain [[1; 2]; [3; 4]] false true false plain_policy plain_world
       = (Return r, plain_policy, plain_world)
       /\ nth_error (data (action r)) 1 = Some [tanh 3].
Proof.
  split; [reflexivity |]. split; [reflexivity |].
  destruct (@deterministic_forward_is_row_by_row plain [[1; 2]; [3; 4]] false false
              plain_policy plain_world [[1; 2]; [3; 4]] eq_refl)
    as (r & Hrun & _ & _ & _ & _ & Hrows).
  exists r. split; [exact Hrun |].
  apply (Hrows 1%nat [3; 4] eq_refl).
Defined.

Lemma odd_width_witness :
  @GraphTransformer_forward plain (module plain_policy) [[1; 2; 3]] = inr [[1; 2; 3]]
  /\ exists r,
       @forward plain [[1; 2; 3]] false true false plain_policy plain_world
       = (Return r, plain_policy, plain_world)
       /\ Forall2 (fun row m => length m = (length row - length row / 2)%nat)
                  [[1; 2; 3]] (data (mean r))
       /\ Forall2 (fun row l => length l = (length row / 2)%nat)
                  [[1; 2; 3]] (data (log_std r)).
Proof.
  split; [reflexivity |].
  destruct (@deterministic_forward_section_widths plain [[1; 2; 3]] false false
              plain_policy plain_world [[1; 2; 3]] eq_refl)
    as (r & Hrun & Hmean & _ & Hlog & _).
  exists r. split; [exact Hrun |]. split; [exact Hmean | exact Hlog].
Defined.

Lemma one_plain_draw_witness :
  @GraphTransformer_forward plain (module plain_policy) [[0; 0]] = inr [[0; 0]]
  /\ Forall (fun row : list R => Nat.even (length row) = true) [[0; 0]]
  /\ @get_actions plain [[0; 0]] false plain_policy plain_world
     = (Return [[tanh (0 + exp (clamp LOG_SIG_MIN LOG_SIG_MAX 0) * INR 7)]],
        plain_policy, @mkWorld plain 8%nat true).
Proof.
  assert (Hwidth : Forall (fun row : list R => Nat.even (length row) = true) [[0; 0]])
    by (repeat constructor).
  split; [reflexivity |]. split; [exact Hwidth |].
  apply (@stochastic_get_actions_makes_one_plain_draw plain [[0; 0]]
           plain_policy plain_world [[0; 0]] eq_refl Hwidth).
Defined.

Lemma same_sample_witness :
  @GraphTransformer_forward plain (module plain_policy) [[0; 0]] = inr [[0; 0]]
  /\ Forall (fun row : list R => Nat.even (length row) = true) [[0; 0]]
  /\ exists r_without r_with z w',
       @forward plain [[0; 0]] true false false plain_policy plain_world
       = (Return r_without, plain_policy, w')
       /\ @forward plain [[0; 0]] true false true plain_policy plain_world
          = (Return r_with, plain_policy, w')
       /\ action r_with = action r_without
       /\ pre_tanh_value r_without = None
       /\ pre_tanh_value r_with = Some z.
Proof.
  assert (Hwidth : Forall (fun row : list R => Nat.even (length row) = true) [[0; 0]])
    by (repeat constructor).
  split; [reflexivity |]. split; [exact Hwidth |].
  destruct (@return_log_prob_does_not_change_the_sample plain [[0; 0]] true
              plain_policy plain_world [[0; 0]] eq_refl Hwidth)
    as (r1 & r2 & z & w' & Hrun1 & Hrun2 & Hact & _ & _ & _ & _ & _ & _ & _
        & _ & Hpre1 & _ & Hpre2 & _).
  exists r1, r2, z, w'. auto.
Defined.
